(** * statsd-go: a shallow embedding of [statsd.go] and its properties

    The client formats metric updates into the StatsD line protocol,
    applies sampling and writes one UDP datagram per metric.  The file
    first embeds the parts of Go's runtime library the client calls
    ([fmt], [strconv], [float32], [math/rand], [net], [log], map
    iteration), then the client itself, and then proves the properties. *)

From Stdlib Require Import ZArith Ascii String DecimalString List Lia.
From Stdlib Require Import Floats.SpecFloat.
From stdpp Require Import gmap strings list fin_maps.

Open Scope string_scope.
Open Scope list_scope.
Open Scope Z_scope.

(** ** Go strings

    A Go [string] is a sequence of bytes; [ascii] is Rocq's 8-bit
    character. *)

Module GoString.

Definition byte_val (c : ascii) : N := N_of_ascii c.

(** [strings.ContainsRune(s, c)] for a one-byte [c]. *)
Fixpoint contains (c : ascii) (s : string) : bool :=
  match s with
  | EmptyString => false
  | String a s' => if Ascii.eqb a c then true else contains c s'
  end.

Fixpoint sdrop (n : nat) (s : string) : string :=
  match n, s with
  | O, _ => s
  | S _, EmptyString => EmptyString
  | S n', String _ s' => sdrop n' s'
  end.

Fixpoint stake (n : nat) (s : string) : string :=
  match n, s with
  | O, _ => EmptyString
  | S _, EmptyString => EmptyString
  | S n', String a s' => String a (stake n' s')
  end.

End GoString.

(** ** float32

    A [float32] is an IEEE 754 binary32 datum: a [spec_float] that is
    valid for 24 bits of precision and maximal exponent 128.  The
    comparisons are the IEEE ones (every comparison with NaN is false). *)

Module Float32.

Definition prec : Z := 24.
Definition emax : Z := 128.

Record float32 : Type := mk {
  val : spec_float;
  valid : valid_binary prec emax val = true
}.

Definition ltb (x y : float32) : bool := SFltb (val x) (val y).
Definition leb (x y : float32) : bool := SFleb (val x) (val y).
Definition eqb (x y : float32) : bool := SFeqb (val x) (val y).

(** The constants the properties mention. *)
Definition zero : float32 := mk (S754_zero false) eq_refl.
Definition one : float32 := mk (S754_finite false 8388608 (-23)) eq_refl.
Definition half : float32 := mk (S754_finite false 8388608 (-24)) eq_refl.
Definition two : float32 := mk (S754_finite false 8388608 (-22)) eq_refl.
Definition nan : float32 := mk S754_nan eq_refl.
(** 1/128 = 0.0078125, a tie at six decimals. *)
Definition one_128th : float32 := mk (S754_finite false 8388608 (-30)) eq_refl.
(** The float32 nearest to 0.2, 13421773 * 2^-26. *)
Definition fifth : float32 := mk (S754_finite false 13421773 (-26)) eq_refl.

End Float32.

Abbreviation float32 := Float32.float32.

(** ** strconv and fmt

    These functions belong to Go's standard library, not to the
    repository; the client's output is defined by them.  The model
    follows [strconv.AppendFloat], fmt's [fmtFloat] and fmt's
    [doPrintf]. *)

Module Fmt.

Import GoString.

(** [%d] of an [int]: decimal digits, with a leading [-] when negative. *)
Definition itoa (z : Z) : string := NilZero.string_of_int (Z.to_int z).

Definition digit_char (d : Z) : ascii := ascii_of_N (48 + Z.to_N (d mod 10)).

(** The low [width] decimal digits of [n], most significant first. *)
Fixpoint digits_fixed (width : nat) (n : Z) : string :=
  match width with
  | O => EmptyString
  | S w => digits_fixed w (n / 10) +:+ String (digit_char n) EmptyString
  end.

(** Nearest integer to [num / den] ([den > 0]), ties to even: the rounding
    of [strconv]'s [decimal.Round]. *)
Definition round_half_even (num den : Z) : Z :=
  let q := num / den in
  let r := num mod den in
  match 2 * r ?= den with
  | Lt => q
  | Gt => q + 1
  | Eq => if Z.even q then q else q + 1
  end.

(** [m * 2^e * 10^digits] rounded to an integer. *)
Definition scaled (digits : nat) (m : positive) (e : Z) : Z :=
  if 0 <=? e then Zpos m * 2 ^ e * 10 ^ Z.of_nat digits
  else round_half_even (Zpos m * 10 ^ Z.of_nat digits) (2 ^ (- e)).

Definition sign_string (s : bool) : string := if s then "-" else "".

(** [strconv.AppendFloat(nil, float64(x), 'f', digits, 32)]. *)
Definition AppendFloat_f (digits : nat) (x : spec_float) : string :=
  match x with
  | S754_nan => "NaN"
  | S754_infinity s => if s then "-Inf" else "+Inf"
  | S754_zero s =>
      sign_string s +:+ "0" +:+ "." +:+ digits_fixed digits 0
  | S754_finite s m e =>
      let n := scaled digits m e in
      sign_string s +:+ itoa (n / 10 ^ Z.of_nat digits) +:+ "." +:+
      digits_fixed digits n
  end.

(** [fmtFloat] for the verb [%f] with no flags, width or precision: the
    number is formatted with a reserved sign slot; a [+] is dropped
    except in front of [Inf]. *)
Definition fmtFloat (x : float32) : string :=
  let s := AppendFloat_f 6 (Float32.val x) in
  let num :=
    match s with
    | String c _ =>
        if (Ascii.eqb c "-" || Ascii.eqb c "+")%bool then s else String "+" s
    | EmptyString => String "+" s
    end in
  match num with
  | String sg (String c rest) =>
      if (Ascii.eqb c "I" || Ascii.eqb c "N")%bool then
        if Ascii.eqb c "N" then String c rest else num
      else if negb (Ascii.eqb sg "+") then num
      else String c rest
  | _ => num
  end.

(** *** Printf with no operands

    [Send] passes the update line to [fmt.Fprintf] as the format string
    and gives no operands.  What follows is [doPrintf(format, nil)]: the
    text outside directives is copied, every directive is parsed (flags,
    argument index, width, precision, verb) and, there being no operand,
    rendered as an error marker; [%%] is a single [%]. *)

Definition is_flag (c : ascii) : bool :=
  (Ascii.eqb c "#" || Ascii.eqb c "0" || Ascii.eqb c "+" || Ascii.eqb c "-"
   || Ascii.eqb c " ")%bool.

Definition is_digit (c : ascii) : bool :=
  ((48 <=? byte_val c) && (byte_val c <=? 57))%N.

(** The flag loop of [doPrintf]: no operand is left, so the fast path for
    simple verbs is never taken. *)
Fixpoint skip_flags (s : string) : string :=
  match s with
  | String c s' => if is_flag c then skip_flags s' else s
  | EmptyString => s
  end.

Definition tooLarge (x : Z) : bool := (1000000 <? x) || (x <? -1000000).

(** [parsenum(s, start, end)] on [s[start:end]]: the number read, whether a
    digit was read, and the number of bytes read; [None] is the overflow
    exit, which moves the index to [end]. *)
Fixpoint parsenum (s : string) (num : Z) (isnum : bool) (read : nat)
  : option (Z * bool * nat) :=
  match s with
  | String c s' =>
      if is_digit c then
        if tooLarge num then None
        else parsenum s' (num * 10 + (Z.of_N (byte_val c) - 48)) true (S read)
      else Some (num, isnum, read)
  | EmptyString => Some (num, isnum, read)
  end.

(** Index of the first ["]"] of [s], counted from [i]. *)
Fixpoint find_bracket (s : string) (i : nat) : option nat :=
  match s with
  | String c s' => if Ascii.eqb c "]" then Some i else find_bracket s' (S i)
  | EmptyString => None
  end.

(** [parseArgNumber(format)], for [format] starting with ["["]: the
    number of bytes to skip and whether an index was read. *)
Definition parseArgNumber (format : string) : nat * bool :=
  if (String.length format <? 3)%nat then (1%nat, false)
  else
    match find_bracket (sdrop 1 format) 1 with
    | Some i =>
        match parsenum (stake (i - 1) (sdrop 1 format)) 0 false 1 with
        | Some (_, ok, newi) =>
            if (negb ok || negb (newi =? i)%nat)%bool then (S i, false)
            else (S i, true)
        | None => (S i, false)
        end
    | None => (1%nat, false)
    end.

(** State of the directive parser: the unread format, whether the
    argument number is still good, and the text written so far. *)
Record pstate : Type := mkP {
  rest : string;
  goodArgNum : bool;
  buf : string
}.

(** [argNumber(argNum, format, i, 0)]: with no operands every explicit
    index is out of range. *)
Definition argNumber (p : pstate) : pstate * bool :=
  match rest p with
  | String "[" _ =>
      let '(wid, ok) := parseArgNumber (rest p) in
      (mkP (sdrop wid (rest p)) false (buf p), ok)
  | _ => (p, false)
  end.

Definition badWidthString : string := "%!(BADWIDTH)".
Definition badPrecString : string := "%!(BADPREC)".
Definition noVerbString : string := "%!(NOVERB)".
Definition missingString : string := "(MISSING)".
Definition badIndexString : string := "(BADINDEX)".
Definition percentBangString : string := "%!".

(** The width: [*] asks for an operand, which is missing. *)
Definition width (p : pstate) (afterIndex : bool) : pstate * bool :=
  match rest p with
  | String "*" s' => (mkP s' (goodArgNum p) (buf p +:+ badWidthString), false)
  | _ =>
      match parsenum (rest p) 0 false 0 with
      | Some (_, widPresent, n) =>
          (mkP (sdrop n (rest p))
               (goodArgNum p && negb (afterIndex && widPresent)) (buf p),
           afterIndex)
      | None => (mkP EmptyString (goodArgNum p) (buf p), afterIndex)
      end
  end.

(** The precision, introduced by a dot. *)
Definition precision (p : pstate) (afterIndex : bool) : pstate * bool :=
  match rest p with
  | String "." s' =>
      let p1 := mkP s' (goodArgNum p && negb afterIndex) (buf p) in
      let '(p2, afterIndex2) := argNumber p1 in
      match rest p2 with
      | String "*" s'' =>
          (mkP s'' (goodArgNum p2) (buf p2 +:+ badPrecString), false)
      | _ =>
          match parsenum (rest p2) 0 false 0 with
          | Some (_, _, n) =>
              (mkP (sdrop n (rest p2)) (goodArgNum p2) (buf p2), afterIndex2)
          | None => (mkP EmptyString (goodArgNum p2) (buf p2), afterIndex2)
          end
      end
  | _ => (p, afterIndex)
  end.

Definition in_range (lo hi : N) (c : ascii) : bool :=
  ((lo <=? byte_val c) && (byte_val c <=? hi))%N.

Definition continuation (c : ascii) : bool := in_range 128 191 c.

(** [utf8.DecodeRuneInString]: the number of bytes of the well-formed
    UTF-8 sequence at the head of [s], or [None] for [RuneError]. *)
Definition rune_size (s : string) : option nat :=
  match s with
  | EmptyString => None
  | String s0 t =>
      let b := byte_val s0 in
      if (b <? 128)%N then Some 1%nat
      else
        let '(sz, lo, hi) :=
          if in_range 194 223 s0 then (2%nat, 128%N, 191%N)
          else if (b =? 224)%N then (3%nat, 160%N, 191%N)
          else if (b =? 237)%N then (3%nat, 128%N, 159%N)
          else if in_range 225 239 s0 then (3%nat, 128%N, 191%N)
          else if (b =? 240)%N then (4%nat, 144%N, 191%N)
          else if in_range 241 243 s0 then (4%nat, 128%N, 191%N)
          else if (b =? 244)%N then (4%nat, 128%N, 143%N)
          else (0%nat, 0%N, 0%N) in
        if (sz =? 0)%nat then None
        else if (String.length s <? sz)%nat then None
        else
          match t with
          | String s1 t1 =>
              if negb (in_range lo hi s1) then None
              else if (sz <=? 2)%nat then Some 2%nat
              else
                match t1 with
                | String s2 t2 =>
                    if negb (continuation s2) then None
                    else if (sz <=? 3)%nat then Some 3%nat
                    else
                      match t2 with
                      | String s3 _ =>
                          if negb (continuation s3) then None else Some 4%nat
                      | EmptyString => None
                      end
                | EmptyString => None
                end
          | EmptyString => None
          end
  end.

(** U+FFFD as UTF-8, what [writeRune(RuneError)] appends. *)
Definition runeError : string :=
  String (ascii_of_N 239) (String (ascii_of_N 191)
    (String (ascii_of_N 189) EmptyString)).

(** The verb at the head of [s]: its bytes as written back by
    [writeRune], and the number of bytes it takes in the format. *)
Definition verb_bytes (s : string) : string * nat :=
  match rune_size s with
  | Some n => (stake n s, n)
  | None => (runeError, 1%nat)
  end.

(** One directive; [s] is the format after the [%].  The result is the
    text written and the unread rest of the format. *)
Definition directive (s : string) : string * string :=
  let p0 := mkP (skip_flags s) true EmptyString in
  let '(p1, afterIndex1) := argNumber p0 in
  let '(p2, afterIndex2) := width p1 afterIndex1 in
  let '(p3, afterIndex3) := precision p2 afterIndex2 in
  let p4 := if afterIndex3 then p3 else fst (argNumber p3) in
  match rest p4 with
  | EmptyString => (buf p4 +:+ noVerbString, EmptyString)
  | String c _ =>
      let '(verb, size) := verb_bytes (rest p4) in
      let rest' := sdrop size (rest p4) in
      if Ascii.eqb c "%" then (buf p4 +:+ "%", rest')
      else if negb (goodArgNum p4) then
        (buf p4 +:+ percentBangString +:+ verb +:+ badIndexString, rest')
      else
        (buf p4 +:+ percentBangString +:+ verb +:+ missingString, rest')
  end.

(** The main loop.  [skip] counts the bytes of the current directive that
    are still to be passed over, which keeps the recursion structural. *)
Fixpoint doPrintf_from (skip : nat) (format : string) : string :=
  match format with
  | EmptyString => EmptyString
  | String c format' =>
      match skip with
      | S k => doPrintf_from k format'
      | O =>
          if Ascii.eqb c "%" then
            let '(out, unread) := directive format' in
            out +:+
            doPrintf_from (String.length format' - String.length unread)
                          format'
          else String c (doPrintf_from 0 format')
      end
  end.

(** [fmt.Sprintf(format)] with no operands. *)
Definition Sprintf0 (format : string) : string := doPrintf_from 0 format.

End Fmt.

(** ** The runtime around the client

    What the program cannot decide by itself is supplied by a [Runtime]:
    whether [net.Dial] and each socket write fail, the first [Float32] of
    a generator made from a seed, and the order in which [range] visits a
    map.  [Float32] is documented to lie in the half-open interval from 0
    to 1; [range] visits every entry once, in an unspecified order. *)

Module Go.

Inductive event : Type :=
  | Drew (seed : Z) (rNum : float32)
      (* rand.New(rand.NewSource(seed)) and the one Float32() drawn *)
  | Wrote (payload : string) (err : option string)
      (* one Write on the socket and the error it returned *)
  | Logged (line : string).
      (* log.Println *)

(** A UDP socket handle: the number of writes made on it and whether it
    was closed. *)
Record Conn : Type := mkConn { nwrites : nat; closed : bool }.

Record Runtime : Type := mkRuntime {
  Dial_err : string -> string -> option string;
  Write_err : nat -> string -> option string;
  Float32_of_seed : Z -> float32;
  Float32_range : forall seed,
    Float32.leb Float32.zero (Float32_of_seed seed) = true /\
    Float32.ltb (Float32_of_seed seed) Float32.one = true;
  range : gmap string string -> list (string * string);
  range_perm : forall m, range m ≡ₚ map_to_list m
}.

End Go.

(** ** The client: statsd.go *)

Module Statsd.

Import GoString Fmt Go.

(** [conn] is an interface value: [None] is the nil interface. *)
Record StatsdClient : Type := mkClient {
  Host : string;
  Port : Z;
  conn : option Conn
}.

(** The receiver, the wall clock (seconds since the epoch) and what the
    process has done so far. *)
Record state : Type := mkState {
  self : StatsdClient;
  clock : Z;
  trace : list event
}.

(** A method either returns or panics; errors are never returned by the
    methods of the client, none of which has a result. *)
Inductive result (A : Type) : Type :=
  | Done (a : A) (st : state)
  | Panic (msg : string) (st : state).
Arguments Done {A} a st.
Arguments Panic {A} msg st.

Definition M (A : Type) : Type := state -> result A.

#[export] Instance M_ret : MRet M := fun A a st => Done a st.
#[export] Instance M_bind : MBind M := fun A B f m st =>
  match m st with
  | Done a st' => f a st'
  | Panic msg st' => Panic msg st'
  end.

Definition get : M state := fun st => Done st st.
Definition emit (e : event) : M unit := fun st =>
  Done tt (mkState (self st) (clock st) (trace st ++ [e])).
Definition set_conn (c : option Conn) : M unit := fun st =>
  Done tt (mkState (mkClient (Host (self st)) (Port (self st)) c)
                   (clock st) (trace st)).
Definition panic {A : Type} (msg : string) : M A := fun st => Panic msg st.

Definition nilDeref : string :=
  "runtime error: invalid memory address or nil pointer dereference".
Definition errClosed : string := "use of closed network connection".

(** [for _, x := range l { body }]. *)
Fixpoint for_each {A : Type} (l : list A) (body : A -> M unit) : M unit :=
  match l with
  | [] => mret tt
  | x :: l' => body x ≫= fun _ => for_each l' body
  end.

Section Client.

Context (rt : Runtime).

Definition time_Now_Unix : M Z := fun st => Done (clock st) st.

(** [rand.New(rand.NewSource(seed)).Float32()]. *)
Definition rand_Float32 (seed : Z) : M float32 :=
  let rNum := Float32_of_seed rt seed in
  emit (Drew seed rNum) ≫= fun _ => mret rNum.

Definition log_Println (line : string) : M unit := emit (Logged line).

(** [fmt.Fprintf(client.conn, format)]: the format is rendered with no
    operands and handed to the [Write] method of the connection; on the
    nil interface the method call panics. *)
Definition Fprintf (format : string) : M (option string) :=
  st ← get;
  match conn (self st) with
  | None => panic nilDeref
  | Some c =>
      let payload := Sprintf0 format in
      let err := if closed c then Some errClosed
                 else Write_err rt (nwrites c) payload in
      _ ← emit (Wrote payload err);
      _ ← set_conn (Some (mkConn (S (nwrites c)) (closed c)));
      mret err
  end.

(** [fmt.Sprintf("%s:%d", host, port)] and the other format calls of the
    client, whose operands are all present. *)
Definition Sprintf_s_colon_d (host : string) (port : Z) : string :=
  host +:+ ":" +:+ itoa port.
Definition Sprintf_d_ms (time : Z) : string := itoa time +:+ "|ms".
Definition Sprintf_d_bar_s (delta : Z) (metric : string) : string :=
  itoa delta +:+ "|" +:+ metric.
Definition Sprintf_s_at_f (value : string) (sampleRate : float32) : string :=
  value +:+ "|@" +:+ fmtFloat sampleRate.
Definition Sprintf_s_colon_s (k v : string) : string := k +:+ ":" +:+ v.

Definition Open : M unit :=
  st ← get;
  let connectionString :=
    Sprintf_s_colon_d (Host (self st)) (Port (self st)) in
  match Dial_err rt "udp" connectionString with
  | Some err => _ ← log_Println err; set_conn None
  | None => set_conn (Some (mkConn 0 false))
  end.

Definition New (host : string) (port : Z) (now : Z) : result unit :=
  Open (mkState (mkClient host port None) now []).

Definition Close : M unit :=
  st ← get;
  match conn (self st) with
  | None => panic nilDeref
  | Some c => set_conn (Some (mkConn (nwrites c) true))
  end.

(** The map [sampledData] that [Send] goes on to write. *)
Definition sampledData (data : gmap string string) (sampleRate : float32)
  : M (gmap string string) :=
  if Float32.ltb sampleRate Float32.one then
    now ← time_Now_Unix;
    rNum ← rand_Float32 now;
    if Float32.leb rNum sampleRate then
      mret ((fun value => Sprintf_s_at_f value sampleRate) <$> data)
    else mret ∅
  else mret data.

(** The body of the loop over [sampledData]: one write, whose error is
    logged and dropped. *)
Definition send_entry (kv : string * string) : M unit :=
  let update_string := Sprintf_s_colon_s (fst kv) (snd kv) in
  err ← Fprintf update_string;
  match err with
  | Some e => log_Println e
  | None => mret tt
  end.

Definition Send (data : gmap string string) (sampleRate : float32) : M unit :=
  sampled ← sampledData data sampleRate;
  for_each (range rt sampled) send_entry.

Definition UpdateStats (stats : list string) (delta : Z)
    (sampleRate : float32) (metric : string) : M unit :=
  let statsToSend :=
    fold_left (fun m stat => <[stat := Sprintf_d_bar_s delta metric]> m)
              stats (∅ : gmap string string) in
  Send statsToSend sampleRate.

Definition Timing (stat : string) (time : Z) : M unit :=
  Send {[stat := Sprintf_d_ms time]} Float32.one.

Definition TimingWithSampleRate (stat : string) (time : Z)
    (sampleRate : float32) : M unit :=
  Send {[stat := Sprintf_d_ms time]} sampleRate.

Definition Increment (stat : string) : M unit :=
  UpdateStats [stat] 1 Float32.one "c".

Definition IncrementWithSampling (stat : string) (sampleRate : float32)
  : M unit :=
  UpdateStats [stat] 1 sampleRate "c".

Definition IncrementByValue (stat : string) (val : Z) : M unit :=
  UpdateStats [stat] val Float32.one "c".

Definition Decrement (stat : string) : M unit :=
  UpdateStats [stat] (-1) Float32.one "c".

Definition DecrementWithSampling (stat : string) (sampleRate : float32)
  : M unit :=
  UpdateStats [stat] (-1) sampleRate "c".

Definition Counter (stat : string) (value : Z) : M unit :=
  UpdateStats [stat] 1 Float32.one "c".

Definition Gauge (stat : string) (value : Z) : M unit :=
  UpdateStats [stat] value Float32.one "g".

Definition GaugeWithSampling (stat : string) (value : Z)
    (sampleRate : float32) : M unit :=
  UpdateStats [stat] value sampleRate "g".

End Client.

(** *** The helper operations as data

    The ten counter, gauge and timing helpers, with the name, value, type
    letter and sample rate each of them hands to [Send]. *)

Inductive call : Type :=
  | CallTiming (stat : string) (time : Z)
  | CallTimingWithSampleRate (stat : string) (time : Z) (sampleRate : float32)
  | CallIncrement (stat : string)
  | CallIncrementWithSampling (stat : string) (sampleRate : float32)
  | CallIncrementByValue (stat : string) (val : Z)
  | CallDecrement (stat : string)
  | CallDecrementWithSampling (stat : string) (sampleRate : float32)
  | CallCounter (stat : string) (value : Z)
  | CallGauge (stat : string) (value : Z)
  | CallGaugeWithSampling (stat : string) (value : Z) (sampleRate : float32).

Definition run (rt : Runtime) (c : call) : M unit :=
  match c with
  | CallTiming stat time => Timing rt stat time
  | CallTimingWithSampleRate stat time r => TimingWithSampleRate rt stat time r
  | CallIncrement stat => Increment rt stat
  | CallIncrementWithSampling stat r => IncrementWithSampling rt stat r
  | CallIncrementByValue stat v => IncrementByValue rt stat v
  | CallDecrement stat => Decrement rt stat
  | CallDecrementWithSampling stat r => DecrementWithSampling rt stat r
  | CallCounter stat v => Counter rt stat v
  | CallGauge stat v => Gauge rt stat v
  | CallGaugeWithSampling stat v r => GaugeWithSampling rt stat v r
  end.

Definition call_stat (c : call) : string :=
  match c with
  | CallTiming stat _ | CallTimingWithSampleRate stat _ _
  | CallIncrement stat | CallIncrementWithSampling stat _
  | CallIncrementByValue stat _ | CallDecrement stat
  | CallDecrementWithSampling stat _ | CallCounter stat _
  | CallGauge stat _ | CallGaugeWithSampling stat _ _ => stat
  end.

Definition call_value (c : call) : Z :=
  match c with
  | CallTiming _ v | CallTimingWithSampleRate _ v _
  | CallIncrementByValue _ v | CallGauge _ v
  | CallGaugeWithSampling _ v _ => v
  | CallIncrement _ | CallIncrementWithSampling _ _ | CallCounter _ _ => 1
  | CallDecrement _ | CallDecrementWithSampling _ _ => -1
  end.

Definition call_type (c : call) : string :=
  match c with
  | CallTiming _ _ | CallTimingWithSampleRate _ _ _ => "ms"
  | CallGauge _ _ | CallGaugeWithSampling _ _ _ => "g"
  | _ => "c"
  end.

Definition call_rate (c : call) : float32 :=
  match c with
  | CallTimingWithSampleRate _ _ r | CallIncrementWithSampling _ r
  | CallDecrementWithSampling _ r | CallGaugeWithSampling _ _ r => r
  | _ => Float32.one
  end.

(** *** Observations on a run *)

Definition final {A : Type} (r : result A) : state :=
  match r with Done _ st => st | Panic _ st => st end.

Definition returned {A : Type} (r : result A) : bool :=
  match r with Done _ _ => true | Panic _ _ => false end.

Definition value_of {A : Type} (r : result A) : option A :=
  match r with Done a _ => Some a | Panic _ _ => None end.

(** The events a call added to the trace of the state it started in. *)
Definition since {A : Type} (st : state) (r : result A) : list event :=
  drop (length (trace st)) (trace (final r)).

Definition payloads_of (t : list event) : list string :=
  omap (fun e => match e with Wrote p _ => Some p | _ => None end) t.

Definition errors_of (t : list event) : list string :=
  omap (fun e => match e with Wrote _ (Some err) => Some err | _ => None end) t.

Definition logs_of (t : list event) : list string :=
  omap (fun e => match e with Logged l => Some l | _ => None end) t.

Definition draws_of (t : list event) : list (Z * float32) :=
  omap (fun e => match e with Drew seed x => Some (seed, x) | _ => None end) t.

(** A client whose socket was opened, at an arbitrary point of its life. *)
Definition opened (host : string) (port : Z) (c : Conn) (now : Z)
    (t : list event) : state :=
  mkState (mkClient host port (Some c)) now t.

(** A client whose socket could not be opened. *)
Definition unopened (host : string) (port : Z) (now : Z) (t : list event)
  : state :=
  mkState (mkClient host port None) now t.




(** The map [Send] builds when the batch is selected. *)
Definition suffixed (r : float32) (data : gmap string string)
  : gmap string string :=
  (fun value => Sprintf_s_at_f value r) <$> data.

(** What [Fprintf] writes for the entry [kv] of the map. *)
Definition line (kv : string * string) : string :=
  Sprintf0 (Sprintf_s_colon_s (fst kv) (snd kv)).


(** *** Sequences of operations

    A caller uses the client through its public methods, one after the
    other; a script lists the operations with the second of the wall
    clock at which each one is made. *)

Inductive op : Type :=
  | OpCall (c : call)
  | OpUpdateStats (stats : list string) (delta : Z) (sampleRate : float32)
      (metric : string)
  | OpSend (data : gmap string string) (sampleRate : float32)
  | OpClose.

Definition exec (rt : Runtime) (o : op) : M unit :=
  match o with
  | OpCall c => run rt c
  | OpUpdateStats stats delta r metric => UpdateStats rt stats delta r metric
  | OpSend data r => Send rt data r
  | OpClose => Close
  end.

Definition at_time (now : Z) : M unit := fun st =>
  Done tt (mkState (self st) now (trace st)).

Definition exec_at (rt : Runtime) (step : Z * op) : M unit :=
  _ ← at_time (fst step); exec rt (snd step).

Definition exec_all (rt : Runtime) (script : list (Z * op)) : M unit :=
  for_each script (exec_at rt).

Definition is_close (o : op) : bool :=
  match o with OpClose => true | _ => false end.

(** The state in which [sampledData] leaves the client: one draw is
    recorded when the rate is below 1. *)
Definition after_draw (rt : Runtime) (r : float32) (st : state) : state :=
  if Float32.ltb r Float32.one then
    mkState (self st) (clock st)
            (trace st ++ [Drew (clock st) (Float32_of_seed rt (clock st))])
  else st.

Definition minus_one : float32 :=
  Float32.mk (S754_finite true 8388608 (-23)) eq_refl.
Definition minus_infinity : float32 :=
  Float32.mk (S754_infinity true) eq_refl.
Definition plus_infinity : float32 :=
  Float32.mk (S754_infinity false) eq_refl.
(** 2^-22, about 0.00000024: a positive rate below half a millionth. *)
Definition tiny : float32 :=
  Float32.mk (S754_finite false 8388608 (-45)) eq_refl.

(** *** Concrete runtimes *)

Definition unit_interval (d : float32) : Prop :=
  Float32.leb Float32.zero d = true /\ Float32.ltb d Float32.one = true.

(** Every generator draws [d]; maps are visited in the order of
    [map_to_list]. *)
Definition runtime_with (d : float32) (Hd : unit_interval d)
    (dial : option string) (werr : nat -> string -> option string)
  : Runtime :=
  mkRuntime (fun _ _ => dial) werr (fun _ => d) (fun _ => Hd)
            map_to_list (fun m => Permutation_refl (map_to_list m)).

Definition quarter : float32 :=
  Float32.mk (S754_finite false 8388608 (-25)) eq_refl.
Definition three_quarters : float32 :=
  Float32.mk (S754_finite false 12582912 (-24)) eq_refl.

(** The generator draws 0, the lowest value of its range. *)
Definition rt_zero : Runtime :=
  runtime_with Float32.zero (conj eq_refl eq_refl) None (fun _ _ => None).
Definition rt_quarter : Runtime :=
  runtime_with quarter (conj eq_refl eq_refl) None (fun _ _ => None).
Definition rt_three_quarters : Runtime :=
  runtime_with three_quarters (conj eq_refl eq_refl) None (fun _ _ => None).
(** The address does not resolve. *)
Definition rt_down : Runtime :=
  runtime_with quarter (conj eq_refl eq_refl)
    (Some "dial udp: lookup nohost: no such host") (fun _ _ => None).
(** The first write on the socket is refused, the later ones succeed. *)
Definition rt_flaky : Runtime :=
  runtime_with quarter (conj eq_refl eq_refl) None
    (fun n _ => if (n =? 0)%nat then Some "write: connection refused"
                else None).

Definition fresh : Conn := mkConn 0 false.

End Statsd.

(** * Properties *)

Import GoString Fmt Go Statsd.

(** ** Formatting *)

Lemma contains_app c (a b : string) :
  contains c (a +:+ b) = contains c a || contains c b.
Proof.
  induction a as [|x a IH]; simpl; [done|].
  destruct (Ascii.eqb x c); [done|apply IH].
Qed.

Lemma doPrintf_plain (s : string) :
  contains "%" s = false -> Sprintf0 s = s.
Proof.
  unfold Sprintf0. induction s as [|c s IH]; simpl; [done|].
  destruct (Ascii.eqb c "%"); [done|].
  intros H. by rewrite IH.
Qed.

Lemma uint_no_percent u : contains "%" (NilZero.string_of_uint u) = false.
Proof.
  unfold NilZero.string_of_uint.
  destruct u; try reflexivity; simpl;
  match goal with |- contains _ (NilEmpty.string_of_uint ?v) = _ => induction v; simpl; auto end.
Qed.

Lemma itoa_no_percent z : contains "%" (itoa z) = false.
Proof.
  unfold itoa, NilZero.string_of_int.
  destruct (Z.to_int z); simpl; apply uint_no_percent.
Qed.

Lemma digit_char_no_percent d : Ascii.eqb (digit_char d) "%" = false.
Proof.
  unfold digit_char.
  assert (H : 0 <= d mod 10 < 10) by (apply Z.mod_pos_bound; lia).
  assert (H' : d mod 10 = 0 \/ d mod 10 = 1 \/ d mod 10 = 2 \/ d mod 10 = 3 \/
               d mod 10 = 4 \/ d mod 10 = 5 \/ d mod 10 = 6 \/ d mod 10 = 7 \/
               d mod 10 = 8 \/ d mod 10 = 9) by lia.
  repeat destruct H' as [-> | H']; try reflexivity. rewrite H'. reflexivity.
Qed.

Lemma digits_fixed_no_percent w n : contains "%" (digits_fixed w n) = false.
Proof.
  revert n. induction w as [|w IH]; intros n; simpl; [done|].
  rewrite contains_app, IH. simpl. by rewrite digit_char_no_percent.
Qed.

Lemma AppendFloat_no_percent w x : contains "%" (AppendFloat_f w x) = false.
Proof.
  destruct x as [s|s| |s m e]; simpl.
  - destruct s; simpl; apply digits_fixed_no_percent.
  - by destruct s.
  - done.
  - rewrite !contains_app, itoa_no_percent, digits_fixed_no_percent.
    by destruct s.
Qed.

Lemma fmtFloat_no_percent x : contains "%" (fmtFloat x) = false.
Proof.
  unfold fmtFloat. pose proof (AppendFloat_no_percent 6 (Float32.val x)) as H.
  destruct (AppendFloat_f 6 (Float32.val x)) as [|c s]; [done|].
  simpl in H. destruct (Ascii.eqb c "%") eqn:Hc; [done|].
  destruct (Ascii.eqb c "-" || Ascii.eqb c "+")%bool eqn:Hs.
  - destruct s as [|c' s']; [simpl; by rewrite Hc|].
    simpl in H. destruct (Ascii.eqb c' "%") eqn:Hc'; [done|].
    destruct (Ascii.eqb c' "I" || Ascii.eqb c' "N")%bool.
    + destruct (Ascii.eqb c' "N"); simpl; by rewrite ?Hc, ?Hc'.
    + destruct (negb (Ascii.eqb c "+")); simpl; by rewrite ?Hc, ?Hc'.
  - destruct (Ascii.eqb c "I" || Ascii.eqb c "N")%bool.
    + destruct (Ascii.eqb c "N"); simpl; by rewrite ?Hc.
    + simpl. by rewrite Hc.
Qed.

Lemma SFcompare_antisym x y :
  SFcompare y x = CompOpp <$> SFcompare x y.
Proof.
  destruct x as [s1|s1| |s1 m1 e1], y as [s2|s2| |s2 m2 e2]; simpl;
    try reflexivity; try (by destruct s1); try (by destruct s2);
    try (by destruct s1, s2).
  destruct s1, s2; simpl; try reflexivity;
    rewrite (Z.compare_antisym e1 e2);
    destruct (e1 ?= e2) eqn:He; simpl; try reflexivity;
    rewrite (Pos.compare_cont_antisym m1 m2 Eq); simpl;
    by destruct (Pos.compare_cont Eq m1 m2).
Qed.

Lemma leb_not_ltb x y : Float32.leb x y = true -> Float32.ltb y x = false.
Proof.
  unfold Float32.leb, Float32.ltb, SFleb, SFltb.
  rewrite (SFcompare_antisym (Float32.val x) (Float32.val y)).
  by destruct (SFcompare (Float32.val x) (Float32.val y)) as [[]|].
Qed.

Lemma ltb_not_leb x y : Float32.ltb x y = true -> Float32.leb y x = false.
Proof.
  unfold Float32.leb, Float32.ltb, SFleb, SFltb.
  rewrite (SFcompare_antisym (Float32.val x) (Float32.val y)).
  by destruct (SFcompare (Float32.val x) (Float32.val y)) as [[]|].
Qed.

Lemma since_app {A} (st : state) (r : result A) (new : list event) :
  trace (final r) = trace st ++ new -> since st r = new.
Proof. unfold since. intros ->. by rewrite drop_app_length. Qed.

Lemma send_entry_open rt kv st c :
  conn (self st) = Some c ->
  let err := if closed c then Some errClosed
             else Write_err rt (nwrites c) (line kv) in
  send_entry rt kv st =
    Done tt (mkState (mkClient (Host (self st)) (Port (self st))
                               (Some (mkConn (S (nwrites c)) (closed c))))
                     (clock st)
                     (trace st ++ Wrote (line kv) err ::
                        match err with Some e => [Logged e] | None => [] end)).
Proof.
  intros Hc err. unfold send_entry, Fprintf, mbind, M_bind, get. rewrite Hc.
  simpl. fold (line kv). fold err. destruct err as [e|]; simpl.
  - unfold log_Println, emit. simpl. by rewrite <- app_assoc.
  - done.
Qed.

Lemma for_each_open rt l : forall st c,
  conn (self st) = Some c ->
  exists st' new,
    for_each l (send_entry rt) st = Done tt st' /\
    trace st' = trace st ++ new /\
    clock st' = clock st /\
    conn (self st') = Some (mkConn (nwrites c + length l) (closed c)) /\
    payloads_of new = line <$> l /\
    draws_of new = [] /\
    logs_of new = errors_of new.
Proof.
  induction l as [|kv l IH]; intros st c Hc.
  - exists st, []. simpl. rewrite app_nil_r, Nat.add_0_r.
    destruct c; repeat split; done.
  - simpl. unfold mbind, M_bind. rewrite (send_entry_open rt kv st c Hc).
    cbv zeta.
    set (err := if closed c then _ else _).
    set (st1 := mkState _ _ _).
    destruct (IH st1 (mkConn (S (nwrites c)) (closed c)) eq_refl)
      as (st' & new & Hrun & Htr & Hck & Hcn & Hp & Hd & Hl).
    exists st', (Wrote (line kv) err ::
                 match err with Some e => [Logged e] | None => [] end ++ new).
    rewrite Hrun, Htr, Hck, Hcn. simpl.
    repeat split.
    + clearbody err. rewrite <- app_assoc. simpl. by destruct err.
    + f_equal. f_equal. lia.
    + clearbody err. unfold payloads_of in *.
      destruct err; simpl; f_equal; exact Hp.
    + clearbody err. unfold draws_of in *. destruct err; simpl; exact Hd.
    + clearbody err. unfold logs_of, errors_of in *.
      destruct err; simpl; [f_equal|]; exact Hl.
Qed.

Lemma sampledData_eq rt data r st :
  sampledData rt data r st =
    if Float32.ltb r Float32.one then
      Done (if Float32.leb (Float32_of_seed rt (clock st)) r
            then suffixed r data else ∅)
           (mkState (self st) (clock st) (trace st ++ [Drew (clock st) (Float32_of_seed rt (clock st))]))
    else Done data st.
Proof.
  unfold sampledData. destruct (Float32.ltb r Float32.one); [|done].
  unfold mbind, M_bind, time_Now_Unix, rand_Float32, emit, mret, M_ret.
  simpl. unfold mbind, M_bind. simpl.
  by destruct (Float32.leb _ r).
Qed.

Lemma Send_open rt data r host port c now t :
  let st := opened host port c now t in
  exists sampled st1 st' new,
    sampledData rt data r st = Done sampled st1 /\
    Send rt data r st = Done tt st' /\
    trace st' = t ++ new /\
    payloads_of new = line <$> range rt sampled /\
    draws_of new = (if Float32.ltb r Float32.one
                    then [(now, Float32_of_seed rt now)] else []) /\
    logs_of new = errors_of new.
Proof.
  intros st. unfold Send, mbind, M_bind. rewrite (sampledData_eq rt data r st).
  destruct (Float32.ltb r Float32.one).
  - set (sampled := if Float32.leb _ r then _ else _).
    set (st1 := mkState _ _ _).
    destruct (for_each_open rt (range rt sampled) st1 c eq_refl)
      as (st' & new & Hrun & Htr & _ & _ & Hp & Hd & Hl).
    exists sampled, st1, st', (Drew now (Float32_of_seed rt now) :: new).
    rewrite Hrun, Htr. simpl. rewrite <- app_assoc.
    repeat split; try done.
    + unfold draws_of in *. simpl. f_equal. exact Hd.
  - destruct (for_each_open rt (range rt data) st c eq_refl)
      as (st' & new & Hrun & Htr & _ & _ & Hp & Hd & Hl).
    exists data, st, st', new. by rewrite Hrun, Htr.
Qed.

(** ** Send *)

Lemma range_empty rt : range rt ∅ = [].
Proof.
  apply Permutation_nil_r. rewrite (range_perm rt ∅). by rewrite map_to_list_empty.
Qed.

Lemma range_singleton rt k v : range rt {[k := v]} = [(k, v)].
Proof.
  apply Permutation_singleton_r. rewrite (range_perm rt).
  by rewrite map_to_list_singleton.
Qed.

Lemma line_suffixed rt r data :
  line <$> range rt (suffixed r data) ≡ₚ
  (fun kv => Sprintf0 (kv.1 +:+ ":" +:+ kv.2 +:+ "|@" +:+ fmtFloat r))
    <$> map_to_list data.
Proof.
  rewrite (range_perm rt). unfold suffixed. rewrite map_to_list_fmap.
  rewrite <- list_fmap_compose.
  erewrite list_fmap_ext; [reflexivity|]. by intros i [k v] _.
Qed.

(** The result of [Send] on an opened client, by cases on the rate and the
    draw. *)
Lemma Send_opened_payloads rt data r host port c now t :
  let st := opened host port c now t in
  let res := Send rt data r st in
  returned res = true /\
  draws_of (since st res) =
    (if Float32.ltb r Float32.one then [(now, Float32_of_seed rt now)]
     else []) /\
  payloads_of (since st res) =
    line <$> range rt
      (if Float32.ltb r Float32.one then
         if Float32.leb (Float32_of_seed rt now) r then suffixed r data else ∅
       else data) /\
  logs_of (since st res) = errors_of (since st res).
Proof.
  intros st res.
  destruct (Send_open rt data r host port c now t)
    as (sampled & st1 & st' & new & Hs & Hrun & Htr & Hp & Hd & Hl).
  fold st in Hs, Hrun. subst res. rewrite Hrun.
  rewrite (since_app st (Done tt st') new) by exact Htr.
  rewrite (sampledData_eq rt data r st) in Hs. simpl in Hs.
  repeat split; try done.
  rewrite Hp. f_equal. f_equal.
  destruct (Float32.ltb r Float32.one); by inversion Hs.
Qed.



(** With a rate of at least 1 the singleton mapping gives one write and no
    draw; the bytes written are the line rendered as a format. *)
Lemma Send_singleton_unsampled rt name v r host port c now t :
  Float32.leb Float32.one r = true ->
  let st := opened host port c now t in
  let res := Send rt {[name := v]} r st in
  returned res = true /\
  draws_of (since st res) = [] /\
  payloads_of (since st res) = [Sprintf0 (name +:+ ":" +:+ v)].
Proof.
  intros Hr st res.
  destruct (Send_opened_payloads rt {[name := v]} r host port c now t)
    as (Hret & Hd & Hp & _).
  fold st in Hret, Hd, Hp. fold res in Hret, Hd, Hp.
  rewrite (leb_not_ltb _ _ Hr) in Hd, Hp.
  by rewrite Hp, range_singleton.
Qed.

(** A line without a percent sign is written as it is. *)
Lemma Send_singleton_plain rt name v r host port c now t :
  Float32.leb Float32.one r = true ->
  contains "%" name = false ->
  contains "%" v = false ->
  let st := opened host port c now t in
  payloads_of (since st (Send rt {[name := v]} r st)) = [name +:+ ":" +:+ v].
Proof.
  intros Hr Hn Hv st.
  destruct (Send_singleton_unsampled rt name v r host port c now t Hr)
    as (_ & _ & Hp).
  fold st in Hp. rewrite Hp. f_equal. apply doPrintf_plain.
  rewrite !contains_app, Hn, Hv. reflexivity.
Qed.

(** C2. Send on the singleton mapping with the name "cpu%" and rate 1
    makes one write and no draw, but the bytes written are not the line
    "cpu%:50|g": the line is used as a format string, and the percent
    sign starts a directive. *)
Theorem Send_percent_in_name :
  let st := opened "localhost" 8125 fresh 1700000000 [] in
  let res := Send rt_quarter {["cpu%" := "50|g"]} Float32.one st in
  returned res = true /\
  draws_of (since st res) = [] /\
  payloads_of (since st res) = ["cpu%!:(MISSING)50|g"] /\
  payloads_of (since st res) <> ["cpu%:50|g"].
Proof. vm_compute. repeat split. discriminate. Qed.





(** C4. Counter does what Increment does, whatever its value argument:
    one unsampled write of the line "name:1|c". *)
Theorem Counter_ignores_value rt stat value host port c now t :
  let st := opened host port c now t in
  let res := Counter rt stat value st in
  (forall st', Counter rt stat value st' = Increment rt stat st') /\
  returned res = true /\
  draws_of (since st res) = [] /\
  payloads_of (since st res) = [Sprintf0 (stat +:+ ":" +:+ "1|c")].
Proof.
  intros st res. split; [reflexivity|].
  apply (Send_singleton_unsampled rt stat "1|c" Float32.one host port c now t).
  reflexivity.
Qed.

Example Counter_x_99 :
  let st := opened "localhost" 8125 fresh 1700000000 [] in
  payloads_of (since st (Counter rt_quarter "x" 99 st)) = ["x:1|c"].
Proof. vm_compute. reflexivity. Qed.

(** C5. When the address does not resolve, New logs the error and leaves
    the client without a socket; the next Increment does not fail
    silently: the write goes through the nil connection and panics. *)
Theorem Increment_after_failed_Open_panics :
  let st := unopened "nohost" 8125 1700000000
              [Logged "dial udp: lookup nohost: no such host"] in
  New rt_down "nohost" 8125 1700000000 = Done tt st /\
  Increment rt_down "x" st = Panic nilDeref st /\
  returned (Increment rt_down "x" st) = false.
Proof. vm_compute. repeat split. Qed.


(** The first of two writes is refused: it is logged and the second write
    is made all the same. *)
Example Send_first_write_refused :
  let st := opened "localhost" 8125 fresh 1700000000 [] in
  since st (Send rt_flaky {["a" := "1|c"; "b" := "2|g"]} Float32.one st) =
    [Wrote "a:1|c" (Some "write: connection refused");
     Logged "write: connection refused";
     Wrote "b:2|g" None].
Proof. vm_compute. reflexivity. Qed.



(** C8. Two Send calls with a rate below 1 made in the same wall-clock
    second seed their generators alike: both obtain the same draw, and
    one decision holds for both, either every entry of each mapping is
    written or none is. *)
Theorem Send_same_second_same_decision rt r now
    data1 host1 port1 c1 t1 data2 host2 port2 c2 t2 :
  Float32.ltb r Float32.one = true ->
  let st1 := opened host1 port1 c1 now t1 in
  let st2 := opened host2 port2 c2 now t2 in
  let res1 := Send rt data1 r st1 in
  let res2 := Send rt data2 r st2 in
  draws_of (since st1 res1) = draws_of (since st2 res2) /\
  length (draws_of (since st1 res1)) = 1%nat /\
  exists selected : bool,
    length (payloads_of (since st1 res1))
      = (if selected then size data1 else 0%nat) /\
    length (payloads_of (since st2 res2))
      = (if selected then size data2 else 0%nat).
Proof.
  intros Hr st1 st2 res1 res2.
  destruct (Send_opened_payloads rt data1 r host1 port1 c1 now t1)
    as (_ & Hd1 & Hp1 & _).
  destruct (Send_opened_payloads rt data2 r host2 port2 c2 now t2)
    as (_ & Hd2 & Hp2 & _).
  fold st1 in Hd1, Hp1. fold res1 in Hd1, Hp1.
  fold st2 in Hd2, Hp2. fold res2 in Hd2, Hp2.
  rewrite Hr in Hd1, Hp1, Hd2, Hp2.
  rewrite Hd1, Hd2, Hp1, Hp2. split; [reflexivity|]. split; [reflexivity|].
  exists (Float32.leb (Float32_of_seed rt now) r).
  rewrite !length_fmap, !(range_perm rt).
  destruct (Float32.leb (Float32_of_seed rt now) r).
  - unfold suffixed. by rewrite !length_map_to_list, !map_size_fmap.
  - by rewrite map_to_list_empty.
Qed.

Lemma Send_same_second_same_decision_witness :
  Float32.ltb Float32.half Float32.one = true /\
  let st1 := opened "localhost" 8125 fresh 1700000000 [] in
  let st2 := opened "localhost" 8125 (mkConn 1 false) 1700000000
               [Wrote "old:1|c" None] in
  let res1 := Send rt_three_quarters {["a" := "1|c"]} Float32.half st1 in
  let res2 := Send rt_three_quarters {["b" := "2|g"]} Float32.half st2 in
  draws_of (since st1 res1) = draws_of (since st2 res2) /\
  length (draws_of (since st1 res1)) = 1%nat /\
  exists selected : bool,
    length (payloads_of (since st1 res1))
      = (if selected then size ({["a" := "1|c"]} : gmap string string)
         else 0%nat) /\
    length (payloads_of (since st2 res2))
      = (if selected then size ({["b" := "2|g"]} : gmap string string)
         else 0%nat).
Proof.
  split; [reflexivity|].
  exact (Send_same_second_same_decision rt_three_quarters Float32.half
           1700000000 {["a" := "1|c"]} "localhost" 8125 fresh []
           {["b" := "2|g"]} "localhost" 8125 (mkConn 1 false)
           [Wrote "old:1|c" None] eq_refl).
Defined.

(** ** The wire format *)







Lemma run_Send rt cl st :
  run rt cl st =
    Send rt {[call_stat cl := itoa (call_value cl) +:+ "|" +:+ call_type cl]}
         (call_rate cl) st.
Proof. destruct cl; reflexivity. Qed.




Example Gauge_load_sampled :
  let st := opened "localhost" 8125 fresh 1700000000 [] in
  payloads_of (since st (GaugeWithSampling rt_quarter "load" 42 Float32.half st))
    = ["load:42|g|@0.500000"].
Proof. vm_compute. reflexivity. Qed.

(** ** UpdateStats *)





Example UpdateStats_duplicate_name :
  let st := opened "localhost" 8125 fresh 1700000000 [] in
  payloads_of (since st
    (UpdateStats rt_quarter ["a"; "b"; "a"] 5 Float32.two "c" st))
    = ["a:5|c"; "b:5|c"].
Proof. vm_compute. reflexivity. Qed.

(** ** Further properties of the client *)

(** The map Send writes, as a function of the rate and the draw. *)
Lemma Send_unfold rt data r st :
  Send rt data r st =
    for_each
      (range rt
         (if Float32.ltb r Float32.one then
            if Float32.leb (Float32_of_seed rt (clock st)) r
            then suffixed r data else ∅
          else data))
      (send_entry rt) (after_draw rt r st).
Proof.
  unfold Send, mbind, M_bind, after_draw.
  rewrite (sampledData_eq rt data r st).
  by destruct (Float32.ltb r Float32.one).
Qed.

Lemma for_each_unopened rt l st :
  conn (self st) = None ->
  for_each l (send_entry rt) st =
    match l with [] => Done tt st | _ :: _ => Panic nilDeref st end.
Proof.
  intros Hc. destruct l as [|kv l]; [reflexivity|].
  cbn [for_each]. unfold mbind, M_bind, send_entry, Fprintf, get.
  unfold mbind, M_bind. by rewrite Hc.
Qed.

Lemma after_draw_since rt r st :
  trace (after_draw rt r st) =
    trace st ++ (if Float32.ltb r Float32.one
                 then [Drew (clock st) (Float32_of_seed rt (clock st))]
                 else []).
Proof.
  unfold after_draw. destruct (Float32.ltb r Float32.one); cbn [trace];
    [done | by rewrite app_nil_r].
Qed.

Lemma range_nil_iff rt (m : gmap string string) : range rt m = [] <-> m = ∅.
Proof.
  rewrite <- map_to_list_empty_iff. split; intros H.
  - apply Permutation_nil_r. by rewrite <- (range_perm rt m), H.
  - apply Permutation_nil_r. by rewrite (range_perm rt m), H.
Qed.

(** X1. On a client without a socket, Send returns exactly when the map it
    is about to write is empty (an empty mapping, or a batch dropped by
    the sampling); otherwise it panics at the first entry.  Either way
    nothing is written or logged, and the draw has been made. *)
Theorem Send_without_socket rt data r host port now t :
  let st := unopened host port now t in
  let res := Send rt data r st in
  exists sampled,
    sampledData rt data r st = Done sampled (after_draw rt r st) /\
    res = (if decide (sampled = ∅) then Done tt (after_draw rt r st)
           else Panic nilDeref (after_draw rt r st)) /\
    payloads_of (since st res) = [] /\
    logs_of (since st res) = [] /\
    draws_of (since st res) =
      (if Float32.ltb r Float32.one then [(now, Float32_of_seed rt now)]
       else []).
Proof.
  intros st res.
  set (sampled := if Float32.ltb r Float32.one then
                    if Float32.leb (Float32_of_seed rt (clock st)) r
                    then suffixed r data else ∅
                  else data).
  exists sampled.
  assert (Hs : sampledData rt data r st = Done sampled (after_draw rt r st)).
  { rewrite sampledData_eq. unfold sampled, after_draw.
    by destruct (Float32.ltb r Float32.one). }
  assert (Hres : res = (if decide (sampled = ∅)
                        then Done tt (after_draw rt r st)
                        else Panic nilDeref (after_draw rt r st))).
  { subst res. rewrite Send_unfold. fold sampled.
    rewrite for_each_unopened
      by (unfold after_draw; by destruct (Float32.ltb r Float32.one)).
    destruct (decide (sampled = ∅)) as [He|Hne].
    - apply (range_nil_iff rt) in He. by rewrite He.
    - destruct (range rt sampled) eqn:Hrg; [|done].
      apply (range_nil_iff rt) in Hrg. done. }
  split; [exact Hs|]. split; [exact Hres|].
  assert (Hsince : since st res =
            (if Float32.ltb r Float32.one
             then [Drew now (Float32_of_seed rt now)] else [])).
  { apply since_app. rewrite Hres.
    destruct (decide (sampled = ∅)); cbn [final]; apply after_draw_since. }
  rewrite Hsince. by destruct (Float32.ltb r Float32.one).
Qed.

Lemma sampled_singleton_nonempty r (k v : string) :
  suffixed r ({[k := v]} : gmap string string) <> ∅.
Proof.
  unfold suffixed. rewrite map_fmap_singleton. apply map_non_empty_singleton.
Qed.

(** X2. On a client whose socket could not be opened, each of the ten
    helpers returns normally only when its rate is below 1 and the draw
    exceeds the rate; in every other case the call panics, and in no case
    is anything written or logged. *)
Theorem helper_without_socket rt cl host port now t :
  let st := unopened host port now t in
  let res := run rt cl st in
  let r := call_rate cl in
  returned res =
    Float32.ltb r Float32.one && negb (Float32.leb (Float32_of_seed rt now) r) /\
  payloads_of (since st res) = [] /\
  logs_of (since st res) = [].
Proof.
  intros st res r. subst res. rewrite (run_Send rt cl st).
  destruct (Send_without_socket rt
              {[call_stat cl := itoa (call_value cl) +:+ "|" +:+ call_type cl]}
              (call_rate cl) host port now t)
    as (sampled & Hs & Hres & Hp & Hl & _).
  fold st in Hs, Hres, Hp, Hl. fold r in Hs, Hres, Hp, Hl. fold r.
  split; [|by split].
  rewrite Hres. rewrite sampledData_eq in Hs. cbn [clock st unopened] in Hs.
  destruct (Float32.ltb r Float32.one); cbn [andb].
  - destruct (Float32.leb (Float32_of_seed rt now) r); cbn [negb];
      injection Hs as <- _.
    + rewrite decide_False by apply sampled_singleton_nonempty. done.
    + by rewrite decide_True.
  - injection Hs as <- _.
    rewrite decide_False by apply map_non_empty_singleton. done.
Qed.

Lemma negative_rate_above_no_draw r d :
  Float32.ltb r Float32.zero = true ->
  Float32.leb Float32.zero d = true ->
  Float32.ltb r Float32.one = true /\ Float32.leb d r = false.
Proof.
  unfold Float32.ltb, Float32.leb, SFltb, SFleb.
  destruct r as [r Hv], d as [d Hv'].
  cbn [Float32.val]. clear Hv Hv'.
  destruct r as [s|s| |s m e], d as [s'|s'| |s' m' e'];
    cbn [SFcompare Float32.val Float32.zero Float32.one];
    try discriminate.
  all: destruct s; try discriminate.
  all: destruct s'; try discriminate.
  all: intros; split; reflexivity.
Qed.

Lemma Send_dropped rt data r st :
  Float32.ltb r Float32.one = true ->
  Float32.leb (Float32_of_seed rt (clock st)) r = false ->
  Send rt data r st = Done tt (after_draw rt r st).
Proof.
  intros Hlt Hle. rewrite Send_unfold, Hlt, Hle, range_empty. reflexivity.
Qed.

(** X3. A negative rate silences the call: whatever the generator draws
    (a value from 0 up to, not including, 1), Send returns after the one
    draw without writing or logging, on every mapping and in every state
    of the client, with or without a socket. *)
Theorem Send_negative_rate rt data r st :
  Float32.ltb r Float32.zero = true ->
  Send rt data r st =
    Done tt (mkState (self st) (clock st)
               (trace st ++ [Drew (clock st) (Float32_of_seed rt (clock st))])).
Proof.
  intros Hr.
  destruct (negative_rate_above_no_draw r (Float32_of_seed rt (clock st)) Hr
              (proj1 (Float32_range rt (clock st)))) as [Hlt Hle].
  rewrite (Send_dropped rt data r st Hlt Hle). unfold after_draw.
  by rewrite Hlt.
Qed.

Lemma Send_negative_rate_witness :
  Float32.ltb minus_one Float32.zero = true /\
  Send rt_zero {["x" := "1|c"]} minus_one
       (unopened "nohost" 8125 1700000000 []) =
    Done tt (mkState (self (unopened "nohost" 8125 1700000000 []))
               (clock (unopened "nohost" 8125 1700000000 []))
               (trace (unopened "nohost" 8125 1700000000 []) ++
                [Drew (clock (unopened "nohost" 8125 1700000000 []))
                   (Float32_of_seed rt_zero
                      (clock (unopened "nohost" 8125 1700000000 [])))])).
Proof.
  split; [reflexivity|].
  exact (Send_negative_rate rt_zero {["x" := "1|c"]} minus_one
           (unopened "nohost" 8125 1700000000 []) eq_refl).
Defined.

(** X4. A rate that is not below 1 (1 or more, plus infinity, or NaN,
    for which every comparison is false) turns the sampling off: Send
    behaves as with rate 1, and the three timing, increment and gauge
    helpers with a rate behave as their plain forms.  Decrement is the
    same for DecrementWithSampling. *)
Theorem rate_not_below_one_unsampled rt r :
  Float32.ltb r Float32.one = false ->
  (forall data st, Send rt data r st = Send rt data Float32.one st) /\
  (forall stat time st,
     TimingWithSampleRate rt stat time r st = Timing rt stat time st) /\
  (forall stat st, IncrementWithSampling rt stat r st = Increment rt stat st) /\
  (forall stat st, DecrementWithSampling rt stat r st = Decrement rt stat st) /\
  (forall stat value st,
     GaugeWithSampling rt stat value r st = Gauge rt stat value st).
Proof.
  intros Hr.
  assert (HS : forall data st, Send rt data r st = Send rt data Float32.one st).
  { intros data st. rewrite !Send_unfold. unfold after_draw. rewrite Hr.
    reflexivity. }
  split; [exact HS|].
  repeat split; intros; apply HS.
Qed.

Lemma rate_not_below_one_unsampled_witness :
  Float32.ltb Float32.nan Float32.one = false /\
  (forall data st,
     Send rt_quarter data Float32.nan st = Send rt_quarter data Float32.one st) /\
  (forall stat time st,
     TimingWithSampleRate rt_quarter stat time Float32.nan st =
     Timing rt_quarter stat time st) /\
  (forall stat st,
     IncrementWithSampling rt_quarter stat Float32.nan st =
     Increment rt_quarter stat st) /\
  (forall stat st,
     DecrementWithSampling rt_quarter stat Float32.nan st =
     Decrement rt_quarter stat st) /\
  (forall stat value st,
     GaugeWithSampling rt_quarter stat value Float32.nan st =
     Gauge rt_quarter stat value st).
Proof.
  split; [reflexivity|].
  exact (rate_not_below_one_unsampled rt_quarter Float32.nan eq_refl).
Defined.

Lemma for_each_opened rt l : forall host port c now t,
  exists new,
    for_each l (send_entry rt) (opened host port c now t) =
      Done tt (opened host port (mkConn (nwrites c + length l) (closed c))
                 now (t ++ new)) /\
    payloads_of new = line <$> l /\
    draws_of new = [] /\
    logs_of new = errors_of new /\
    (if closed c then errors_of new = (fun _ => errClosed) <$> l else True).
Proof.
  induction l as [|kv l IH]; intros host port c now t.
  - exists []. rewrite app_nil_r, Nat.add_0_r. destruct c as [n b].
    cbn. by destruct b.
  - cbn [for_each]. unfold mbind, M_bind.
    rewrite (send_entry_open rt kv (opened host port c now t) c eq_refl).
    cbv zeta. cbn [self Host Port clock trace opened].
    set (err := if closed c then _ else _).
    destruct (IH host port (mkConn (S (nwrites c)) (closed c)) now
                (t ++ Wrote (line kv) err ::
                   match err with Some e => [Logged e] | None => [] end))
      as (new & Hrun & Hp & Hd & Hl & Hc).
    exists (Wrote (line kv) err ::
              match err with Some e => [Logged e] | None => [] end ++ new).
    unfold opened in *. rewrite Hrun. cbn [nwrites closed] in *.
    replace (S (nwrites c) + length l)%nat
      with (nwrites c + length (kv :: l))%nat by (cbn [length]; lia).
    split; [by rewrite <- app_assoc|].
    split; [|split; [|split]].
    + unfold payloads_of in *. clearbody err.
      destruct err; cbn; f_equal; exact Hp.
    + unfold draws_of in *. clearbody err. destruct err; cbn; exact Hd.
    + unfold logs_of, errors_of in *. clearbody err.
      destruct err; cbn; [f_equal|]; exact Hl.
    + subst err. destruct (closed c); [|done].
      unfold errors_of in *. cbn. f_equal. exact Hc.
Qed.

Lemma errors_le_payloads (new : list event) :
  (length (errors_of new) <= length (payloads_of new))%nat.
Proof.
  unfold errors_of, payloads_of.
  induction new as [|[s x|p [e|]|l] new IH]; cbn in *; lia.
Qed.

(** Send on a client with a socket: the final state and the new events. *)
Lemma Send_opened_state rt data r host port c now t :
  exists sampled new,
    sampledData rt data r (opened host port c now t) =
      Done sampled (after_draw rt r (opened host port c now t)) /\
    Send rt data r (opened host port c now t) =
      Done tt (opened host port
                 (mkConn (nwrites c + length (payloads_of new)) (closed c))
                 now (t ++ new)) /\
    payloads_of new = line <$> range rt sampled /\
    draws_of new =
      (if Float32.ltb r Float32.one then [(now, Float32_of_seed rt now)]
       else []) /\
    logs_of new = errors_of new /\
    (if closed c then errors_of new = (fun _ => errClosed) <$> range rt sampled
     else True).
Proof.
  rewrite Send_unfold, sampledData_eq.
  set (sampled := if Float32.ltb r Float32.one then _ else data).
  exists sampled.
  unfold after_draw. cbn [self clock trace opened].
  destruct (Float32.ltb r Float32.one) eqn:Hlt.
  - destruct (for_each_opened rt (range rt sampled) host port c now
                (t ++ [Drew now (Float32_of_seed rt now)]))
      as (new & Hrun & Hp & Hd & Hl & Hc).
    exists (Drew now (Float32_of_seed rt now) :: new).
    unfold opened in *. rewrite Hrun, <- app_assoc.
    change (payloads_of (Drew now (Float32_of_seed rt now) :: new))
      with (payloads_of new).
    change (errors_of (Drew now (Float32_of_seed rt now) :: new))
      with (errors_of new).
    change (logs_of (Drew now (Float32_of_seed rt now) :: new))
      with (logs_of new).
    change (draws_of (Drew now (Float32_of_seed rt now) :: new))
      with ((now, Float32_of_seed rt now) :: draws_of new).
    rewrite Hp, Hd, length_fmap. by repeat split.
  - destruct (for_each_opened rt (range rt sampled) host port c now t)
      as (new & Hrun & Hp & Hd & Hl & Hc).
    exists new. unfold opened in *. rewrite Hrun, Hp, length_fmap.
    by repeat split.
Qed.

(** X5. Send on a client with a socket returns and leaves host, port and
    clock as they were; the socket is neither closed nor replaced, its
    write count grows by the number of writes made, the events of the
    call are appended to the trace, and the log lines are the errors of
    the failed writes. *)
Theorem Send_keeps_client rt data r host port c now t :
  exists new,
    Send rt data r (opened host port c now t) =
      Done tt (opened host port
                 (mkConn (nwrites c + length (payloads_of new)) (closed c))
                 now (t ++ new)) /\
    logs_of new = errors_of new /\
    (length (logs_of new) <= length (payloads_of new))%nat.
Proof.
  destruct (Send_opened_state rt data r host port c now t)
    as (sampled & new & _ & Hrun & _ & _ & Hl & _).
  exists new. split; [exact Hrun|]. split; [exact Hl|].
  rewrite Hl. apply errors_le_payloads.
Qed.

Lemma last_cons_default {A} (l : list A) : forall a d,
  List.last (a :: l) d = List.last l a.
Proof.
  induction l as [|b l IH]; intros a d; [reflexivity|].
  change (List.last (a :: b :: l) d) with (List.last (b :: l) d).
  by rewrite (IH b d), (IH b a).
Qed.

(** Any script run on a client with a socket. *)
Lemma exec_all_opened rt script : forall host port c now t,
  exists c' new,
    exec_all rt script (opened host port c now t) =
      Done tt (opened host port c' (List.last (fst <$> script) now)
                 (t ++ new)) /\
    nwrites c' = (nwrites c + length (payloads_of new))%nat /\
    closed c' = closed c || existsb (fun step => is_close (snd step)) script /\
    logs_of new = errors_of new.
Proof.
  unfold exec_all.
  induction script as [|[now1 o] script IH]; intros host port c now t.
  - exists c, []. rewrite app_nil_r, orb_false_r. cbn. repeat split. lia.
  - cbn [for_each existsb]. unfold mbind, M_bind.
    assert (Hstep : exists c1 new1,
      exec_at rt (now1, o) (opened host port c now t) =
        Done tt (opened host port c1 now1 (t ++ new1)) /\
      nwrites c1 = (nwrites c + length (payloads_of new1))%nat /\
      closed c1 = closed c || is_close o /\
      logs_of new1 = errors_of new1).
    { unfold exec_at, mbind, M_bind, at_time. cbn [fst snd self trace opened].
      change (mkState (mkClient host port (Some c)) now1 t)
        with (opened host port c now1 t).
      destruct o as [cl|stats delta r metric|data r|]; cbn [exec is_close].
      - rewrite run_Send.
        destruct (Send_opened_state rt
          {[call_stat cl := itoa (call_value cl) +:+ "|" +:+ call_type cl]}
          (call_rate cl) host port c now1 t)
          as (sampled & new & _ & Hrun & _ & _ & Hl & _).
        eexists _, new. rewrite Hrun, orb_false_r. by repeat split.
      - unfold UpdateStats.
        destruct (Send_opened_state rt
          (fold_left (fun m stat => <[stat := Sprintf_d_bar_s delta metric]> m)
             stats ∅) r host port c now1 t)
          as (sampled & new & _ & Hrun & _ & _ & Hl & _).
        eexists _, new. rewrite Hrun, orb_false_r. by repeat split.
      - destruct (Send_opened_state rt data r host port c now1 t)
          as (sampled & new & _ & Hrun & _ & _ & Hl & _).
        eexists _, new. rewrite Hrun, orb_false_r. by repeat split.
      - exists (mkConn (nwrites c) true), [].
        rewrite app_nil_r, orb_true_r. cbn. repeat split. lia. }
    destruct Hstep as (c1 & new1 & Hrun1 & Hn1 & Hc1 & Hl1).
    rewrite Hrun1.
    destruct (IH host port c1 now1 (t ++ new1))
      as (c' & new & Hrun & Hn & Hc & Hl).
    exists c', (new1 ++ new). rewrite Hrun, <- app_assoc.
    split.
    { do 2 f_equal. cbn [fmap list_fmap fst].
      symmetry. apply last_cons_default. }
    unfold payloads_of, logs_of, errors_of in *. rewrite !omap_app, !length_app.
    split; [lia|]. split.
    + rewrite Hc, Hc1. cbn [snd]. by rewrite orb_assoc.
    + by rewrite Hl1, Hl.
Qed.

Lemma burst_state rt r now (cls : list call) host port :
  Float32.ltb r Float32.one = true ->
  Forall (fun cl => call_rate cl = r) cls ->
  forall c t,
  exists c' new,
    exec_all rt ((fun cl => (now, OpCall cl)) <$> cls)
             (opened host port c now t) =
      Done tt (opened host port c' now (t ++ new)) /\
    length (payloads_of new) =
      (if Float32.leb (Float32_of_seed rt now) r then length cls else 0%nat) /\
    draws_of new = (fun _ => (now, Float32_of_seed rt now)) <$> cls.
Proof.
  intros Hr Hall. unfold exec_all.
  induction Hall as [|cl cls Hcl Hall IH]; intros c t.
  - exists c, []. rewrite app_nil_r. cbn. by destruct (Float32.leb _ r).
  - cbn [fmap list_fmap for_each]. unfold mbind, M_bind.
    unfold exec_at at 1. unfold mbind, M_bind, at_time.
    cbn [fst snd self trace opened exec].
    change (mkState (mkClient host port (Some c)) now t)
      with (opened host port c now t).
    rewrite run_Send, Hcl.
    destruct (Send_opened_state rt
      {[call_stat cl := itoa (call_value cl) +:+ "|" +:+ call_type cl]}
      r host port c now t)
      as (sampled & new1 & Hs & Hrun & Hp & Hd & _ & _).
    rewrite Hrun.
    destruct (IH (mkConn (nwrites c + length (payloads_of new1)) (closed c))
                (t ++ new1)) as (c' & new & Hrun' & Hp' & Hd').
    exists c', (new1 ++ new).
    change (list_fmap call (Z * op)%type (fun cl => (now, OpCall cl)) cls)
      with ((fun cl => (now, OpCall cl)) <$> cls).
    rewrite Hrun', <- app_assoc. split; [done|].
    unfold payloads_of, draws_of in *. rewrite !omap_app, length_app.
    rewrite Hp', Hd', Hd, Hr. split; [|done].
    rewrite Hp, length_fmap.
    rewrite sampledData_eq, Hr in Hs. cbn [clock opened] in Hs.
    injection Hs as <- _.
    assert (Hlen : forall m : gmap string string,
              length (range rt m) = size m).
    { intros m. by rewrite (range_perm rt m), length_map_to_list. }
    rewrite Hlen. cbn [length].
    destruct (Float32.leb (Float32_of_seed rt now) r).
    + unfold suffixed. by rewrite map_size_fmap, map_size_singleton.
    + by rewrite map_size_empty.
Qed.

(** X7. A burst of sampled helper calls made within one second at one
    rate below 1 is sent or dropped as a whole: every call seeds its
    generator with that second and draws the same value, so either each
    call writes its datagram or none does. *)
Theorem burst_same_decision rt r now (cls : list call) host port c t :
  Float32.ltb r Float32.one = true ->
  Forall (fun cl => call_rate cl = r) cls ->
  let st := opened host port c now t in
  let res := exec_all rt ((fun cl => (now, OpCall cl)) <$> cls) st in
  returned res = true /\
  length (payloads_of (since st res)) =
    (if Float32.leb (Float32_of_seed rt now) r then length cls else 0%nat) /\
  draws_of (since st res) = (fun _ => (now, Float32_of_seed rt now)) <$> cls.
Proof.
  intros Hr Hall st res.
  destruct (burst_state rt r now cls host port Hr Hall c t)
    as (c' & new & Hrun & Hp & Hd).
  subst res st. rewrite Hrun.
  rewrite (since_app (opened host port c now t) (Done tt _) new) by done.
  done.
Qed.

Lemma burst_same_decision_witness :
  Float32.ltb Float32.half Float32.one = true /\
  Forall (fun cl => call_rate cl = Float32.half)
    [CallIncrementWithSampling "a" Float32.half;
     CallGaugeWithSampling "b" 7 Float32.half;
     CallTimingWithSampleRate "c" 150 Float32.half] /\
  let cls := [CallIncrementWithSampling "a" Float32.half;
              CallGaugeWithSampling "b" 7 Float32.half;
              CallTimingWithSampleRate "c" 150 Float32.half] in
  let st := opened "localhost" 8125 fresh 1700000000 [] in
  let res := exec_all rt_three_quarters
               ((fun cl => (1700000000, OpCall cl)) <$> cls) st in
  returned res = true /\
  length (payloads_of (since st res)) =
    (if Float32.leb (Float32_of_seed rt_three_quarters 1700000000) Float32.half
     then length cls else 0%nat) /\
  draws_of (since st res) =
    (fun _ => (1700000000, Float32_of_seed rt_three_quarters 1700000000))
      <$> cls.
Proof.
  assert (H : Forall (fun cl => call_rate cl = Float32.half)
    [CallIncrementWithSampling "a" Float32.half;
     CallGaugeWithSampling "b" 7 Float32.half;
     CallTimingWithSampleRate "c" 150 Float32.half])
    by (repeat constructor).
  split; [reflexivity|]. split; [exact H|].
  exact (burst_same_decision rt_three_quarters Float32.half 1700000000
           [CallIncrementWithSampling "a" Float32.half;
            CallGaugeWithSampling "b" 7 Float32.half;
            CallTimingWithSampleRate "c" 150 Float32.half]
           "localhost" 8125 fresh [] eq_refl H).
Defined.


(** X9. When the address cannot be dialled, New logs the error and
    returns, and a Close on the client it made panics on the nil
    connection. *)
Theorem Close_without_socket rt host port now e :
  Dial_err rt "udp" (host +:+ ":" +:+ itoa port) = Some e ->
  New rt host port now = Done tt (unopened host port now [Logged e]) /\
  Close (unopened host port now [Logged e]) =
    Panic nilDeref (unopened host port now [Logged e]).
Proof.
  intros He. split; [|reflexivity].
  unfold New, Open, mbind, M_bind, get. cbn [self Host Port].
  unfold Sprintf_s_colon_d. rewrite He. reflexivity.
Qed.

Lemma Close_without_socket_witness :
  Dial_err rt_down "udp" ("nohost" +:+ ":" +:+ itoa 8125)
    = Some "dial udp: lookup nohost: no such host" /\
  New rt_down "nohost" 8125 1700000000 =
    Done tt (unopened "nohost" 8125 1700000000
               [Logged "dial udp: lookup nohost: no such host"]) /\
  Close (unopened "nohost" 8125 1700000000
           [Logged "dial udp: lookup nohost: no such host"]) =
    Panic nilDeref (unopened "nohost" 8125 1700000000
                      [Logged "dial udp: lookup nohost: no such host"]).
Proof.
  split; [reflexivity|].
  exact (Close_without_socket rt_down "nohost" 8125 1700000000
           "dial udp: lookup nohost: no such host" eq_refl).
Defined.



Lemma line_plain (kv : string * string) :
  contains "%" kv.1 = false -> contains "%" kv.2 = false ->
  line kv = kv.1 +:+ ":" +:+ kv.2.
Proof.
  intros H1 H2. unfold line, Sprintf_s_colon_s. apply doPrintf_plain.
  by rewrite !contains_app, H1, H2.
Qed.

Lemma lines_plain (l : list (string * string)) :
  Forall (fun kv => contains "%" kv.1 = false /\ contains "%" kv.2 = false) l ->
  line <$> l = (fun kv => kv.1 +:+ ":" +:+ kv.2) <$> l.
Proof.
  induction 1 as [|kv l [H1 H2] _ IH]; [reflexivity|].
  cbn [fmap list_fmap]. f_equal; [by apply line_plain | exact IH].
Qed.

(** X11. When no name and no value of the mapping holds a percent sign,
    the datagrams Send writes are the lines name:value themselves, with
    the suffix |@rate after the value when the batch was sampled in; the
    percent-free suffix never disturbs the line. *)
Theorem Send_plain_lines rt data r host port c now t :
  map_Forall (fun k v => contains "%" k = false /\ contains "%" v = false)
             data ->
  let st := opened host port c now t in
  payloads_of (since st (Send rt data r st)) ≡ₚ
    (if Float32.ltb r Float32.one then
       if Float32.leb (Float32_of_seed rt now) r then
         (fun kv => kv.1 +:+ ":" +:+ kv.2 +:+ "|@" +:+ fmtFloat r)
           <$> map_to_list data
       else []
     else (fun kv => kv.1 +:+ ":" +:+ kv.2) <$> map_to_list data).
Proof.
  intros Hall st.
  assert (Hl : Forall (fun kv => contains "%" kv.1 = false /\
                                 contains "%" kv.2 = false)
                 (map_to_list data)).
  { apply Forall_forall. intros [k v] Hin.
    apply elem_of_map_to_list in Hin. exact (Hall k v Hin). }
  destruct (Send_opened_payloads rt data r host port c now t)
    as (_ & _ & Hp & _).
  fold st in Hp. rewrite Hp.
  destruct (Float32.ltb r Float32.one).
  - destruct (Float32.leb (Float32_of_seed rt now) r).
    + rewrite line_suffixed.
      erewrite (Forall_fmap_ext_1 _ _ (map_to_list data)); [reflexivity|].
      eapply Forall_impl; [exact Hl|]. intros [k v] [H1 H2]. cbn [fst snd] in *.
      apply doPrintf_plain.
      by rewrite !contains_app, H1, H2, fmtFloat_no_percent.
    + by rewrite range_empty.
  - rewrite (range_perm rt data). by rewrite (lines_plain _ Hl).
Qed.

Lemma Send_plain_lines_witness :
  map_Forall (fun k v => contains "%" k = false /\ contains "%" v = false)
             ({["a" := "1|c"; "b" := "2|g"]} : gmap string string) /\
  let st := opened "localhost" 8125 fresh 1700000000 [] in
  payloads_of (since st
     (Send rt_quarter {["a" := "1|c"; "b" := "2|g"]} Float32.one st)) ≡ₚ
    (if Float32.ltb Float32.one Float32.one then
       if Float32.leb (Float32_of_seed rt_quarter 1700000000) Float32.one then
         (fun kv => kv.1 +:+ ":" +:+ kv.2 +:+ "|@" +:+ fmtFloat Float32.one)
           <$> map_to_list ({["a" := "1|c"; "b" := "2|g"]} : gmap string string)
       else []
     else (fun kv => kv.1 +:+ ":" +:+ kv.2)
            <$> map_to_list ({["a" := "1|c"; "b" := "2|g"]} : gmap string string)).
Proof.
  assert (H : map_Forall
            (fun k v => contains "%" k = false /\ contains "%" v = false)
            ({["a" := "1|c"; "b" := "2|g"]} : gmap string string)).
  { apply map_Forall_insert_2; [by split|].
    apply map_Forall_insert_2; [by split|]. apply map_Forall_empty. }
  split; [exact H|].
  exact (Send_plain_lines rt_quarter {["a" := "1|c"; "b" := "2|g"]}
           Float32.one "localhost" 8125 fresh 1700000000 [] H).
Defined.

Lemma scaled_below_half (m : positive) (e : Z) :
  Z.pos m * 2000000 < 2 ^ (- e) -> scaled 6 m e = 0.
Proof.
  intros H. unfold scaled.
  assert (He : e < 0).
  { destruct (Z.ltb_spec e 0) as [|Hge]; [done|exfalso].
    destruct (Z.eq_dec e 0) as [->|Hne].
    - change (2 ^ (- 0)) with 1 in H. lia.
    - rewrite Z.pow_neg_r in H by lia. lia. }
  destruct (Z.leb_spec 0 e) as [|_]; [lia|].
  change (10 ^ Z.of_nat 6) with 1000000.
  unfold round_half_even.
  assert (Hpos : 0 < 2 ^ (- e)) by (apply Z.pow_pos_nonneg; lia).
  rewrite Z.div_small, Z.mod_small by lia.
  destruct (Z.compare_spec (2 * (Z.pos m * 1000000)) (2 ^ (- e)));
    [lia | reflexivity | lia].
Qed.

Lemma digits2_pos_lower (m : positive) :
  2 ^ (Z.pos (digits2_pos m) - 1) <= Z.pos m.
Proof.
  induction m as [p IH|p IH|]; cbn [digits2_pos].
  - rewrite Pos2Z.inj_succ.
    replace (Z.succ (Z.pos (digits2_pos p)) - 1)
      with (Z.succ (Z.pos (digits2_pos p) - 1)) by lia.
    rewrite Z.pow_succ_r by lia. lia.
  - rewrite Pos2Z.inj_succ.
    replace (Z.succ (Z.pos (digits2_pos p)) - 1)
      with (Z.succ (Z.pos (digits2_pos p) - 1)) by lia.
    rewrite Z.pow_succ_r by lia. lia.
  - reflexivity.
Qed.

(** A valid binary32 number above the subnormal exponent has a full
    mantissa. *)
Lemma valid_full_mantissa (s : bool) (m : positive) (e : Z) :
  valid_binary Float32.prec Float32.emax (S754_finite s m e) = true ->
  -149 < e -> 8388608 <= Z.pos m.
Proof.
  unfold valid_binary, bounded, canonical_mantissa, fexp, emin,
    Float32.prec, Float32.emax.
  intros Hv He. apply andb_true_iff in Hv as [Hc _].
  apply Z.eqb_eq in Hc.
  assert (Hd : Z.pos (digits2_pos m) = 24) by lia.
  pose proof (digits2_pos_lower m) as Hl. rewrite Hd in Hl.
  change (2 ^ (24 - 1)) with 8388608 in Hl. exact Hl.
Qed.

(** X12. A positive rate below half a millionth loses its value on the
    wire: the six decimals of the suffix round it to zero, so a batch
    that is sampled in at such a rate is written with the suffix
    "|@0.000000". *)
Theorem tiny_rate_suffix_zero rt data (m : positive) (e : Z) Hv
    host port c now t :
  Z.pos m * 2000000 < 2 ^ (- e) ->
  let r := Float32.mk (S754_finite false m e) Hv in
  Float32.leb (Float32_of_seed rt now) r = true ->
  let st := opened host port c now t in
  fmtFloat r = "0.000000" /\
  payloads_of (since st (Send rt data r st)) ≡ₚ
    (fun kv => Sprintf0 (kv.1 +:+ ":" +:+ kv.2 +:+ "|@0.000000"))
      <$> map_to_list data.
Proof.
  intros Hsmall r Hd st.
  assert (Hf : fmtFloat r = "0.000000").
  { unfold fmtFloat, r. cbn [Float32.val AppendFloat_f].
    rewrite (scaled_below_half m e Hsmall). reflexivity. }
  split; [exact Hf|].
  assert (Hlt : Float32.ltb r Float32.one = true).
  { unfold Float32.ltb, SFltb, r.
    cbn [Float32.val Float32.one SFcompare].
    assert (He : e < -23).
    { destruct (Z.ltb_spec e (-23)) as [|Hge]; [done|exfalso].
      assert (2 ^ (- e) <= 2 ^ 23) by (apply Z.pow_le_mono_r; lia).
      change (2 ^ 23) with 8388608 in *.
      pose proof (valid_full_mantissa false m e Hv ltac:(lia)). lia. }
    apply Z.compare_lt_iff in He. by rewrite He. }
  destruct (Send_opened_payloads rt data r host port c now t)
    as (_ & _ & Hp & _).
  fold st in Hp. rewrite Hp, Hlt, Hd, line_suffixed, Hf. reflexivity.
Qed.

Lemma tiny_rate_suffix_zero_witness :
  Z.pos 8388608 * 2000000 < 2 ^ (- (-45)) /\
  Float32.leb (Float32_of_seed rt_zero 1700000000) tiny = true /\
  let st := opened "localhost" 8125 fresh 1700000000 [] in
  fmtFloat tiny = "0.000000" /\
  payloads_of (since st (Send rt_zero {["x" := "1|c"]} tiny st)) ≡ₚ
    (fun kv => Sprintf0 (kv.1 +:+ ":" +:+ kv.2 +:+ "|@0.000000"))
      <$> map_to_list ({["x" := "1|c"]} : gmap string string).
Proof.
  assert (H : Z.pos 8388608 * 2000000 < 2 ^ (- (-45))) by (vm_compute; reflexivity).
  split; [exact H|]. split; [reflexivity|].
  exact (tiny_rate_suffix_zero rt_zero {["x" := "1|c"]} 8388608 (-45) eq_refl
           "localhost" 8125 fresh 1700000000 [] H eq_refl).
Defined.

(** X6. Once the socket is open, no script of public operations
    (helpers, UpdateStats, Send, Close), made at any times, panics: the
    run returns with the same host and port, the socket still set, its
    write count raised by the number of writes, closed exactly when it
    was closed before or the script holds a Close, and with one log line
    for every failed write. *)
Theorem exec_all_never_panics rt script host port c now t :
  let st := opened host port c now t in
  let res := exec_all rt script st in
  returned res = true /\
  Host (self (final res)) = host /\
  Port (self (final res)) = port /\
  (exists c',
     conn (self (final res)) = Some c' /\
     nwrites c' = (nwrites c + length (payloads_of (since st res)))%nat /\
     closed c' =
       closed c || existsb (fun step => is_close (snd step)) script) /\
  logs_of (since st res) = errors_of (since st res).
Proof.
  intros st res.
  destruct (exec_all_opened rt script host port c now t)
    as (c' & new & Hrun & Hn & Hc & Hl).
  subst res st. rewrite Hrun.
  rewrite (since_app (opened host port c now t) (Done tt _) new) by done.
  cbn [returned final self Host Port conn opened].
  repeat split; try done.
  exists c'. by repeat split.
Qed.

(** X13. When the address can be dialled, New opens a fresh socket and
    logs nothing, and any script of public operations run on the new
    client returns: the socket ends closed exactly when the script holds
    a Close, its write count is the number of writes made, and the log
    holds one line for every failed write. *)
Theorem session_after_dial rt host port now script :
  Dial_err rt "udp" (host +:+ ":" +:+ itoa port) = None ->
  New rt host port now = Done tt (opened host port fresh now []) /\
  exists c' new,
    (Open rt ≫= fun _ => exec_all rt script)
      (mkState (mkClient host port None) now []) =
      Done tt (opened host port c' (List.last (fst <$> script) now) new) /\
    nwrites c' = length (payloads_of new) /\
    closed c' = existsb (fun step => is_close (snd step)) script /\
    logs_of new = errors_of new.
Proof.
  intros Hd.
  assert (HN : New rt host port now = Done tt (opened host port fresh now [])).
  { unfold New, Open, mbind, M_bind, get. cbn [self Host Port].
    unfold Sprintf_s_colon_d. rewrite Hd. reflexivity. }
  split; [exact HN|].
  destruct (exec_all_opened rt script host port fresh now [])
    as (c' & new & Hrun & Hn & Hc & Hl).
  exists c', new. unfold mbind, M_bind at 1.
  change (Open rt (mkState (mkClient host port None) now []))
    with (New rt host port now).
  rewrite HN, Hrun. by repeat split.
Qed.

Lemma session_after_dial_witness :
  Dial_err rt_flaky "udp" ("localhost" +:+ ":" +:+ itoa 8125) = None /\
  New rt_flaky "localhost" 8125 1700000000 =
    Done tt (opened "localhost" 8125 fresh 1700000000 []) /\
  exists c' new,
    (Open rt_flaky ≫= fun _ =>
       exec_all rt_flaky
         [(1700000000, OpCall (CallIncrement "a"));
          (1700000001, OpClose);
          (1700000002, OpCall (CallGauge "b" 3))])
      (mkState (mkClient "localhost" 8125 None) 1700000000 []) =
      Done tt (opened "localhost" 8125 c'
                 (List.last (fst <$> [(1700000000, OpCall (CallIncrement "a"));
                                      (1700000001, OpClose);
                                      (1700000002, OpCall (CallGauge "b" 3))])
                            1700000000) new) /\
    nwrites c' = length (payloads_of new) /\
    closed c' = existsb (fun step => is_close (snd step))
                  [(1700000000, OpCall (CallIncrement "a"));
                   (1700000001, OpClose);
                   (1700000002, OpCall (CallGauge "b" 3))] /\
    logs_of new = errors_of new.
Proof.
  split; [reflexivity|].
  exact (session_after_dial rt_flaky "localhost" 8125 1700000000
           [(1700000000, OpCall (CallIncrement "a"));
            (1700000001, OpClose);
            (1700000002, OpCall (CallGauge "b" 3))] eq_refl).
Defined.

Example session_trace :
  since (mkState (mkClient "localhost" 8125 None) 1700000000 [])
    ((Open rt_flaky ≫= fun _ =>
       exec_all rt_flaky
         [(1700000000, OpCall (CallIncrement "a"));
          (1700000001, OpClose);
          (1700000002, OpCall (CallGauge "b" 3))])
      (mkState (mkClient "localhost" 8125 None) 1700000000 [])) =
  [Wrote "a:1|c" (Some "write: connection refused");
   Logged "write: connection refused";
   Wrote "b:3|g" (Some errClosed); Logged errClosed].
Proof. vm_compute. reflexivity. Qed.

(** ** The library model on known inputs

    Renderings that Go's own documentation and tests give for [%f] and
    for formats with missing operands. *)

Example fmtFloat_samples :
  fmtFloat Float32.half = "0.500000" /\
  fmtFloat Float32.one = "1.000000" /\
  fmtFloat Float32.two = "2.000000" /\
  fmtFloat Float32.fifth = "0.200000" /\
  fmtFloat Float32.one_128th = "0.007812" /\
  fmtFloat minus_one = "-1.000000" /\
  fmtFloat Float32.zero = "0.000000" /\
  fmtFloat Float32.nan = "NaN" /\
  fmtFloat plus_infinity = "+Inf" /\
  fmtFloat minus_infinity = "-Inf".
Proof. vm_compute. repeat split. Qed.

Example Sprintf0_samples :
  Sprintf0 "x:1|c" = "x:1|c" /\
  Sprintf0 "100%%" = "100%" /\
  Sprintf0 "%d" = "%!d(MISSING)" /\
  Sprintf0 "%" = "%!(NOVERB)" /\
  Sprintf0 "%[1]d" = "%!d(BADINDEX)" /\
  Sprintf0 "%[d" = "%!d(BADINDEX)" /\
  Sprintf0 "%[]d" = "%!d(BADINDEX)" /\
  Sprintf0 "%.[]" = "%!](BADINDEX)" /\
  Sprintf0 "%[3]" = "%!(NOVERB)" /\
  Sprintf0 "%*d" = "%!(BADWIDTH)%!d(MISSING)" /\
  Sprintf0 "%.*d" = "%!(BADPREC)%!d(MISSING)" /\
  Sprintf0 "%-08.3f|" = "%!f(MISSING)|".
Proof. vm_compute. repeat split. Qed.
